(** * Column-definition builder and having-clause accumulation of kysely

    A shallow embedding of [src/schema/column-definition-builder.ts] and of
    the [orHaving] family declared in [src/query-builder/having-interface.ts].

    Operation nodes are frozen JavaScript objects: they are modelled as
    records (values).  Builder objects have identity: they live in a heap
    that maps an object reference to the content of the private field
    [#node]; every method runs in a state-and-exception monad over that
    heap. *)

From Stdlib Require Import String Ascii.
From stdpp Require Import base option list.

Local Open Scope string_scope.
Local Open Scope list_scope.

(** ** Errors and outcomes *)

(** A JavaScript [Error] carries a message.  The constructor records the
    class of the taxonomy (malformed reference, precondition violation);
    [TypeError] is what the language raises when a private field is read
    from something that is not an instance of the class. *)
Inductive Error : Type :=
  | MalformedReference (message : string)
  | PreconditionViolation (message : string)
  | TypeError (message : string).

Inductive Outcome (A : Type) : Type :=
  | Returned (value : A)
  | Thrown (error : Error).

Arguments Returned {A} value.
Arguments Thrown {A} error.

(** ** Operation nodes *)

(** A raw SQL expression node, as produced by the [sql] template tag. *)
Module RawNode.
Record t : Type := mk { sqlFragments : list string; parameters : list string }.
End RawNode.

(** [AnyRawBuilder]: anything that can turn itself into an operation node. *)
Module AnyRawBuilder.
Record t : Type := mk { rawNode : RawNode.t }.
Definition toOperationNode (expression : t) : RawNode.t := rawNode expression.
End AnyRawBuilder.

Module TableNode.
Record t : Type := mk { schema : option string; table : string }.
End TableNode.

Module ColumnNode.
Record t : Type := mk { column : string }.
Definition create (column : string) : t := mk column.
End ColumnNode.

(** The column slot of a [ReferenceNode] is a [ColumnNode] or the
    "all columns" marker [SelectAllNode]. *)
Inductive ReferenceColumn : Type :=
  | IsColumnNode (column : ColumnNode.t)
  | IsSelectAllNode.

Module ReferenceNode.
Record t : Type := mk { table : TableNode.t; column : ReferenceColumn }.
End ReferenceNode.

(** What [parseStringReference] hands back: the source tests the result
    with [ReferenceNode.is], so the result may be a node of another kind
    (a bare column). *)
Inductive ParsedReference : Type :=
  | BareColumn (column : ColumnNode.t)
  | Reference (reference : ReferenceNode.t).

(** Modelled from the spec: the type [OnModifyForeignAction] of
    [operation-node/references-node.ts] is not part of the sources at hand;
    the actions are the enumerated set [cascade], [set null],
    [set default], [restrict], [no action]. *)
Inductive OnModifyForeignAction : Type :=
  | no_action | restrict | cascade | set_null | set_default.

(** Modelled from the spec: [ReferencesNode] and its helpers [create],
    [cloneWithOnDelete], [cloneWithOnUpdate] live in
    [operation-node/references-node.ts], which is not part of the sources at
    hand.  A references node has a target table, an ordered list of target
    columns and optional [onDelete]/[onUpdate] actions; [create] builds a
    fresh node from the table and the columns, and each clone operation
    returns a copy with one action set and everything else preserved. *)
Module ReferencesNode.
Record t : Type := mk {
  table : TableNode.t;
  columns : list ColumnNode.t;
  onDelete : option OnModifyForeignAction;
  onUpdate : option OnModifyForeignAction
}.

Definition create (table : TableNode.t) (columns : list ColumnNode.t) : t :=
  mk table columns None None.

Definition cloneWithOnDelete (references : t) (onDelete : OnModifyForeignAction) : t :=
  mk (table references) (columns references) (Some onDelete) (ReferencesNode.onUpdate references).

Definition cloneWithOnUpdate (references : t) (onUpdate : OnModifyForeignAction) : t :=
  mk (table references) (columns references) (ReferencesNode.onDelete references) (Some onUpdate).
End ReferencesNode.

(** Modelled from the spec: [GeneratedNode] and its helpers [create],
    [createWithExpression], [cloneWith] live in
    [operation-node/generated-node.ts], which is not part of the sources at
    hand.  A generated node is either expression based or an identity
    specifier with an [always]/[byDefault] mode, with an optional [stored]
    flag; all fields are optional properties.  [create] builds a node from
    the given properties, [createWithExpression] an expression-form node,
    and [cloneWith] a copy with the given properties overridden. *)
Module GeneratedNode.
Record t : Type := mk {
  byDefault : option bool;
  always : option bool;
  identity : option bool;
  stored : option bool;
  expression : option RawNode.t
}.

(** One entry of a JavaScript object literal [{ key: value, ... }]. *)
Inductive Param : Type :=
  | set_byDefault (value : bool)
  | set_always (value : bool)
  | set_identity (value : bool)
  | set_stored (value : bool).

Definition assign (node : t) (param : Param) : t :=
  match param with
  | set_byDefault v => mk (Some v) (always node) (identity node) (stored node) (expression node)
  | set_always v => mk (byDefault node) (Some v) (identity node) (stored node) (expression node)
  | set_identity v => mk (byDefault node) (always node) (Some v) (stored node) (expression node)
  | set_stored v => mk (byDefault node) (always node) (identity node) (Some v) (expression node)
  end.

Definition empty : t := mk None None None None None.

Definition create (params : list Param) : t := fold_left assign params empty.

Definition createWithExpression (expression : RawNode.t) : t :=
  mk None None None None (Some expression).

Definition cloneWith (node : t) (params : list Param) : t :=
  fold_left assign params node.
End GeneratedNode.

Module CheckConstraintNode.
Record t : Type := mk { expression : RawNode.t }.
Definition create (expression : RawNode.t) : t := mk expression.
End CheckConstraintNode.

(** A default value is a literal or a raw expression. *)
Inductive DefaultValueExpression : Type :=
  | LiteralValue (literal : string)
  | RawValue (expression : AnyRawBuilder.t).

Inductive DefaultValue : Type :=
  | ValueNode (literal : string)
  | RawDefault (node : RawNode.t).

(** Modelled from the spec: [parseDefaultValueExpression] of
    [parser/default-value-parser.ts] is not part of the sources at hand; it
    parses a default-value expression, a literal or a raw expression, into
    the node that [DefaultValueNode] wraps. *)
Definition parseDefaultValueExpression (value : DefaultValueExpression) : DefaultValue :=
  match value with
  | LiteralValue literal => ValueNode literal
  | RawValue expression => RawDefault (AnyRawBuilder.toOperationNode expression)
  end.

Module DefaultValueNode.
Record t : Type := mk { defaultValue : DefaultValue }.
Definition create (defaultValue : DefaultValue) : t := mk defaultValue.
End DefaultValueNode.

(** Modelled from the spec: [ColumnDefinitionNode] and its [cloneWith] live
    in [operation-node/column-definition-node.ts], which is not part of the
    sources at hand.  A column definition has a name, a base type and the
    optional flags and sub-nodes listed below; [cloneWith] takes a partial
    set of field overrides and returns a new node with those fields replaced
    and all others preserved. *)
Module ColumnDefinitionNode.
Record t : Type := mk {
  column : ColumnNode.t;
  dataType : string;
  references : option ReferencesNode.t;
  primaryKey : option bool;
  autoIncrement : option bool;
  unique : option bool;
  notNull : option bool;
  unsigned : option bool;
  defaultTo : option DefaultValueNode.t;
  check : option CheckConstraintNode.t;
  generated : option GeneratedNode.t
}.

(** One entry of the object literal passed as [props]. *)
Inductive Prop_ : Type :=
  | set_references (value : ReferencesNode.t)
  | set_primaryKey (value : bool)
  | set_autoIncrement (value : bool)
  | set_unique (value : bool)
  | set_notNull (value : bool)
  | set_unsigned (value : bool)
  | set_defaultTo (value : DefaultValueNode.t)
  | set_check (value : CheckConstraintNode.t)
  | set_generated (value : GeneratedNode.t).

Definition assign (n : t) (prop : Prop_) : t :=
  match prop with
  | set_references v =>
      mk (column n) (dataType n) (Some v) (primaryKey n) (autoIncrement n) (unique n)
         (notNull n) (unsigned n) (defaultTo n) (check n) (generated n)
  | set_primaryKey v =>
      mk (column n) (dataType n) (references n) (Some v) (autoIncrement n) (unique n)
         (notNull n) (unsigned n) (defaultTo n) (check n) (generated n)
  | set_autoIncrement v =>
      mk (column n) (dataType n) (references n) (primaryKey n) (Some v) (unique n)
         (notNull n) (unsigned n) (defaultTo n) (check n) (generated n)
  | set_unique v =>
      mk (column n) (dataType n) (references n) (primaryKey n) (autoIncrement n) (Some v)
         (notNull n) (unsigned n) (defaultTo n) (check n) (generated n)
  | set_notNull v =>
      mk (column n) (dataType n) (references n) (primaryKey n) (autoIncrement n) (unique n)
         (Some v) (unsigned n) (defaultTo n) (check n) (generated n)
  | set_unsigned v =>
      mk (column n) (dataType n) (references n) (primaryKey n) (autoIncrement n) (unique n)
         (notNull n) (Some v) (defaultTo n) (check n) (generated n)
  | set_defaultTo v =>
      mk (column n) (dataType n) (references n) (primaryKey n) (autoIncrement n) (unique n)
         (notNull n) (unsigned n) (Some v) (check n) (generated n)
  | set_check v =>
      mk (column n) (dataType n) (references n) (primaryKey n) (autoIncrement n) (unique n)
         (notNull n) (unsigned n) (defaultTo n) (Some v) (generated n)
  | set_generated v =>
      mk (column n) (dataType n) (references n) (primaryKey n) (autoIncrement n) (unique n)
         (notNull n) (unsigned n) (defaultTo n) (check n) (Some v)
  end.

(** [freeze({ ...node, ...props })]: the entries of [props] are written
    over a copy of [node], in order. *)
Definition cloneWith (node : t) (props : list Prop_) : t :=
  fold_left assign props node.
End ColumnDefinitionNode.

(** ** Reference parsing *)

(** [ref.split('.')]: the segments between the dots; a string without a
    dot is its own single segment, and the empty string has one empty
    segment. *)
Fixpoint split_dot (s : string) : list string :=
  match s with
  | EmptyString => [EmptyString]
  | String c rest =>
      if Ascii.eqb c "." then EmptyString :: split_dot rest
      else match split_dot rest with
           | segment :: segments => String c segment :: segments
           | [] => [String c EmptyString]
           end
  end.

(** The wildcard marker of a column segment. *)
Definition parseColumnSegment (segment : string) : ReferenceColumn :=
  if String.eqb segment "*" then IsSelectAllNode
  else IsColumnNode (ColumnNode.create segment).

(** Modelled from the spec: [parseStringReference] of
    [parser/reference-parser.ts] is not part of the sources at hand.  Given
    a string, split on [.]; exactly 2 segments yield [table.column], exactly
    3 yield [schema.table.column]; any other count fails with a descriptive
    error identifying the offending input.  Identifiers are kept as they
    are (no normalization).  A column segment that is the wildcard marker
    yields the "all columns" variant of the reference node, which is the one
    the guard of [references] turns down. *)
Definition parseStringReference (ref : string) : Outcome ParsedReference :=
  match split_dot ref with
  | [table; column] =>
      Returned (Reference (ReferenceNode.mk (TableNode.mk None table)
                                            (parseColumnSegment column)))
  | [schema; table; column] =>
      Returned (Reference (ReferenceNode.mk (TableNode.mk (Some schema) table)
                                            (parseColumnSegment column)))
  | _ => Thrown (MalformedReference ("invalid column reference " ++ ref)%string)
  end.

(** ** The heap of builder objects and the monad of method calls *)

(** A reference to a [ColumnDefinitionBuilder] object. *)
Definition ColumnDefinitionBuilder : Type := nat.

(** The heap holds, for every builder object allocated so far, the content
    of its private field [#node]. *)
Definition Heap : Type := list ColumnDefinitionNode.t.

Definition M (A : Type) : Type := Heap -> Outcome A * Heap.

Definition ret {A} (a : A) : M A := fun h => (Returned a, h).

Definition throw {A} (e : Error) : M A := fun h => (Thrown e, h).

Definition bind {A B} (m : M A) (k : A -> M B) : M B :=
  fun h =>
    match m h with
    | (Returned a, h') => k a h'
    | (Thrown e, h') => (Thrown e, h')
    end.

Notation "'let!' x ':=' m 'in' k" := (bind m (fun x => k))
  (at level 10, x name, m at level 100, k at level 200).

(** A pure computation that may throw. *)
Definition lift {A} (o : Outcome A) : M A := fun h => (o, h).

(** [new ColumnDefinitionBuilder(node)]: allocates a fresh object whose
    [#node] is [node]. *)
Definition new_ColumnDefinitionBuilder (node : ColumnDefinitionNode.t) : M ColumnDefinitionBuilder :=
  fun h => (Returned (length h), h ++ [node]).

(** [this.#node]. *)
Definition get_node (this : ColumnDefinitionBuilder) : M ColumnDefinitionNode.t :=
  fun h =>
    match h !! this with
    | Some node => (Returned node, h)
    | None => (Thrown (TypeError "Cannot read private member #node from an object whose class did not declare it"), h)
    end.

(** ** The builder *)

Module Builder.
Import ColumnDefinitionNode.

Definition autoIncrement (this : ColumnDefinitionBuilder) : M ColumnDefinitionBuilder :=
  let! node := get_node this in
  new_ColumnDefinitionBuilder (cloneWith node [set_autoIncrement true]).

Definition primaryKey (this : ColumnDefinitionBuilder) : M ColumnDefinitionBuilder :=
  let! node := get_node this in
  new_ColumnDefinitionBuilder (cloneWith node [set_primaryKey true]).

(** The guard [!ReferenceNode.is(references) ||
    SelectAllNode.is(references.column)] is the pattern match: anything
    but a reference node whose column is a [ColumnNode] throws. *)
Definition references (this : ColumnDefinitionBuilder) (ref : string) : M ColumnDefinitionBuilder :=
  let! references := lift (parseStringReference ref) in
  match references with
  | Reference r =>
      match ReferenceNode.column r with
      | IsColumnNode column =>
          let! node := get_node this in
          new_ColumnDefinitionBuilder
            (cloneWith node
               [set_references (ReferencesNode.create (ReferenceNode.table r) [column])])
      | IsSelectAllNode =>
          throw (MalformedReference
                   ("invalid call references('" ++ ref ++ "'). The reference must have format table.column or schema.table.column")%string)
      end
  | BareColumn _ =>
      throw (MalformedReference
               ("invalid call references('" ++ ref ++ "'). The reference must have format table.column or schema.table.column")%string)
  end.

Definition onDelete (this : ColumnDefinitionBuilder) (onDelete : OnModifyForeignAction)
  : M ColumnDefinitionBuilder :=
  let! node := get_node this in
  match ColumnDefinitionNode.references node with
  | None => throw (PreconditionViolation "on delete constraint can only be added for foreign keys")
  | Some references =>
      new_ColumnDefinitionBuilder
        (cloneWith node [set_references (ReferencesNode.cloneWithOnDelete references onDelete)])
  end.

Definition onUpdate (this : ColumnDefinitionBuilder) (onUpdate : OnModifyForeignAction)
  : M ColumnDefinitionBuilder :=
  let! node := get_node this in
  match ColumnDefinitionNode.references node with
  | None => throw (PreconditionViolation "on update constraint can only be added for foreign keys")
  | Some references =>
      new_ColumnDefinitionBuilder
        (cloneWith node [set_references (ReferencesNode.cloneWithOnUpdate references onUpdate)])
  end.

Definition unique (this : ColumnDefinitionBuilder) : M ColumnDefinitionBuilder :=
  let! node := get_node this in
  new_ColumnDefinitionBuilder (cloneWith node [set_unique true]).

Definition notNull (this : ColumnDefinitionBuilder) : M ColumnDefinitionBuilder :=
  let! node := get_node this in
  new_ColumnDefinitionBuilder (cloneWith node [set_notNull true]).

Definition unsigned (this : ColumnDefinitionBuilder) : M ColumnDefinitionBuilder :=
  let! node := get_node this in
  new_ColumnDefinitionBuilder (cloneWith node [set_unsigned true]).

Definition defaultTo (this : ColumnDefinitionBuilder) (value : DefaultValueExpression)
  : M ColumnDefinitionBuilder :=
  let! node := get_node this in
  new_ColumnDefinitionBuilder
    (cloneWith node [set_defaultTo (DefaultValueNode.create (parseDefaultValueExpression value))]).

Definition check (this : ColumnDefinitionBuilder) (expression : AnyRawBuilder.t)
  : M ColumnDefinitionBuilder :=
  let! node := get_node this in
  new_ColumnDefinitionBuilder
    (cloneWith node
       [set_check (CheckConstraintNode.create (AnyRawBuilder.toOperationNode expression))]).

Definition generatedAlwaysAs (this : ColumnDefinitionBuilder) (expression : AnyRawBuilder.t)
  : M ColumnDefinitionBuilder :=
  let! node := get_node this in
  new_ColumnDefinitionBuilder
    (cloneWith node
       [set_generated
          (GeneratedNode.createWithExpression (AnyRawBuilder.toOperationNode expression))]).

Definition generatedAlwaysAsIdentity (this : ColumnDefinitionBuilder) : M ColumnDefinitionBuilder :=
  let! node := get_node this in
  new_ColumnDefinitionBuilder
    (cloneWith node
       [set_generated
          (GeneratedNode.create [GeneratedNode.set_identity true; GeneratedNode.set_always true])]).

Definition generatedByDefaultAsIdentity (this : ColumnDefinitionBuilder) : M ColumnDefinitionBuilder :=
  let! node := get_node this in
  new_ColumnDefinitionBuilder
    (cloneWith node
       [set_generated
          (GeneratedNode.create [GeneratedNode.set_identity true; GeneratedNode.set_byDefault true])]).

Definition stored (this : ColumnDefinitionBuilder) : M ColumnDefinitionBuilder :=
  let! node := get_node this in
  match ColumnDefinitionNode.generated node with
  | None => throw (PreconditionViolation "stored() can only be called after generatedAlwaysAs")
  | Some generated =>
      new_ColumnDefinitionBuilder
        (cloneWith node
           [set_generated (GeneratedNode.cloneWith generated [GeneratedNode.set_stored true])])
  end.

Definition toOperationNode (this : ColumnDefinitionBuilder) : M ColumnDefinitionNode.t :=
  get_node this.
End Builder.

(** The chainable methods of [ColumnDefinitionBuilderInterface], with their
    arguments. *)
Inductive Method : Type :=
  | m_autoIncrement
  | m_primaryKey
  | m_references (ref : string)
  | m_onDelete (action : OnModifyForeignAction)
  | m_onUpdate (action : OnModifyForeignAction)
  | m_unique
  | m_notNull
  | m_unsigned
  | m_defaultTo (value : DefaultValueExpression)
  | m_check (expression : AnyRawBuilder.t)
  | m_generatedAlwaysAs (expression : AnyRawBuilder.t)
  | m_generatedAlwaysAsIdentity
  | m_generatedByDefaultAsIdentity
  | m_stored.

(** The call [this.m(...)]. *)
Definition call (m : Method) (this : ColumnDefinitionBuilder) : M ColumnDefinitionBuilder :=
  match m with
  | m_autoIncrement => Builder.autoIncrement this
  | m_primaryKey => Builder.primaryKey this
  | m_references ref => Builder.references this ref
  | m_onDelete action => Builder.onDelete this action
  | m_onUpdate action => Builder.onUpdate this action
  | m_unique => Builder.unique this
  | m_notNull => Builder.notNull this
  | m_unsigned => Builder.unsigned this
  | m_defaultTo value => Builder.defaultTo this value
  | m_check expression => Builder.check this expression
  | m_generatedAlwaysAs expression => Builder.generatedAlwaysAs this expression
  | m_generatedAlwaysAsIdentity => Builder.generatedAlwaysAsIdentity this
  | m_generatedByDefaultAsIdentity => Builder.generatedByDefaultAsIdentity this
  | m_stored => Builder.stored this
  end.

(** A call chain [this.m1(...).m2(...)...]: it stops at the first call
    that throws. *)
Fixpoint chain (ms : list Method) (this : ColumnDefinitionBuilder) : M ColumnDefinitionBuilder :=
  match ms with
  | [] => ret this
  | m :: ms' => let! next := call m this in chain ms' next
  end.

(** ** Having clauses *)

Module Having.

(** Predicate trees: boolean combinators, comparisons and existence
    checks; an operand is a reference, a literal or a nested
    expression. *)
Inductive Predicate : Type :=
  | AndNode (left right : Predicate)
  | OrNode (left right : Predicate)
  | Comparison (lhs : Operand) (op : string) (rhs : Operand)
  | Exists (negated : bool) (arg : Operand)
with Operand : Type :=
  | ReferenceOperand (ref : string)
  | ValueOperand (literal : string)
  | ExpressionOperand (expression : Predicate).

(** The capability handed to a [HavingExpressionFactory]: comparison
    and combination operations. *)
Record HavingExpressionBuilder : Type := mkBuilder {
  cmpr : Operand -> string -> Operand -> Predicate;
  and_ : Predicate -> Predicate -> Predicate;
  or_ : Predicate -> Predicate -> Predicate
}.

Definition expressionBuilder : HavingExpressionBuilder :=
  mkBuilder Comparison AndNode OrNode.

Definition HavingExpressionFactory : Type := HavingExpressionBuilder -> Predicate.

(** The three overloads of [orHaving] declared by [HavingInterface]. *)
Inductive HavingArgs : Type :=
  | binary (lhs : string) (op : string) (rhs : Operand)
  | factory (f : HavingExpressionFactory)
  | expression (e : Predicate).

(** The condition a call supplies: a direct comparison, what the factory
    builds from the expression-builder capability, or the expression
    itself. *)
Definition parseHaving (args : HavingArgs) : Predicate :=
  match args with
  | binary lhs op rhs => Comparison (ReferenceOperand lhs) op rhs
  | factory f => f expressionBuilder
  | expression e => e
  end.

(** The statement under construction: the having clause and the clauses
    of other types. *)
Record QueryNode : Type := mkQuery {
  where_ : option Predicate;
  groupBy : list Operand;
  having : option Predicate
}.

(** Modelled from the spec: the classes that implement [HavingInterface]
    are not part of the sources at hand, only the interface is.  The
    deprecated accumulation methods combine the newly supplied condition
    with the previously accumulated conditions using OR at the top level;
    each call appends rather than replaces.  With nothing accumulated
    yet, the supplied condition is the clause. *)
Definition cloneWithOrHaving (query : QueryNode) (condition : Predicate) : QueryNode :=
  mkQuery (where_ query) (groupBy query)
          (Some match having query with
                | Some accumulated => OrNode accumulated condition
                | None => condition
                end).

Definition orHaving (args : HavingArgs) (this : QueryNode) : QueryNode :=
  cloneWithOrHaving this (parseHaving args).

Definition orHavingRef (lhs op rhs : string) (this : QueryNode) : QueryNode :=
  cloneWithOrHaving this (Comparison (ReferenceOperand lhs) op (ReferenceOperand rhs)).

Definition orHavingExists (arg : Operand) (this : QueryNode) : QueryNode :=
  cloneWithOrHaving this (Exists false arg).

Definition orHavingNotExists (arg : Operand) (this : QueryNode) : QueryNode :=
  cloneWithOrHaving this (Exists true arg).

(** SQL truth values and the three-valued connectives. *)
Inductive SqlBool : Type := sql_true | sql_false | sql_unknown.

Definition sql_or (a b : SqlBool) : SqlBool :=
  match a, b with
  | sql_true, _ | _, sql_true => sql_true
  | sql_false, sql_false => sql_false
  | _, _ => sql_unknown
  end.

Definition sql_and (a b : SqlBool) : SqlBool :=
  match a, b with
  | sql_false, _ | _, sql_false => sql_false
  | sql_true, sql_true => sql_true
  | _, _ => sql_unknown
  end.

(** The value of a predicate tree on a row, given the values of its
    comparisons and existence checks. *)
Fixpoint eval (atom : Predicate -> SqlBool) (p : Predicate) : SqlBool :=
  match p with
  | AndNode l r => sql_and (eval atom l) (eval atom r)
  | OrNode l r => sql_or (eval atom l) (eval atom r)
  | Comparison _ _ _ | Exists _ _ => atom p
  end.

(** An operation on a clause of another type leaves the having clause
    as it is. *)
Definition other_clause (f : QueryNode -> QueryNode) : Prop :=
  forall query, having (f query) = having query.

(** Example conditions, one per overload, and an example call on a
    clause of another type. *)
Definition example_c1 : HavingArgs := binary "age" ">" (ValueOperand "18").

Definition example_c2 : HavingArgs :=
  factory (fun eb => and_ eb (cmpr eb (ReferenceOperand "a") "=" (ValueOperand "1"))
                             (cmpr eb (ReferenceOperand "b") "=" (ValueOperand "2"))).

Definition example_c3 : HavingArgs := expression (Exists false (ReferenceOperand "pets")).

Definition example_groupBy (query : QueryNode) : QueryNode :=
  mkQuery (where_ query) (groupBy query ++ [ReferenceOperand "age"]) (having query).

End Having.

(** ** Observing a call chain *)

(** [B.m1(...)...mk(...).toOperationNode()]: the node extracted at the end
    of a chain, or the error of the first call that throws. *)
Definition extracted (ms : list Method) (B : ColumnDefinitionBuilder) (h : Heap)
  : Outcome ColumnDefinitionNode.t :=
  fst ((let! b := chain ms B in Builder.toOperationNode b) h).

(** The node that a call on a builder wrapping [node] hands to the
    constructor of the new builder, or the error it throws. *)
Definition transform (m : Method) (node : ColumnDefinitionNode.t)
  : Outcome ColumnDefinitionNode.t :=
  fst ((let! b := call m 0 in Builder.toOperationNode b) [node]).

(** The flag each of the five flag methods sets. *)
Definition flag_of (m : Method) : option (ColumnDefinitionNode.t -> option bool) :=
  match m with
  | m_autoIncrement => Some ColumnDefinitionNode.autoIncrement
  | m_primaryKey => Some ColumnDefinitionNode.primaryKey
  | m_unique => Some ColumnDefinitionNode.unique
  | m_notNull => Some ColumnDefinitionNode.notNull
  | m_unsigned => Some ColumnDefinitionNode.unsigned
  | _ => None
  end.

(** A references sub-node, when present, targets exactly one column. *)
Definition single_column (node : ColumnDefinitionNode.t) : Prop :=
  match ColumnDefinitionNode.references node with
  | Some r => length (ReferencesNode.columns r) = 1
  | None => True
  end.

(** ** Fields written by the methods *)

(** The optional fields of a column definition node. *)
Inductive Field : Type :=
  | f_references | f_primaryKey | f_autoIncrement | f_unique | f_notNull
  | f_unsigned | f_defaultTo | f_check | f_generated.

(** The key of the object literal that the method passes to
    [ColumnDefinitionNode.cloneWith]. *)
Definition written_field (m : Method) : Field :=
  match m with
  | m_autoIncrement => f_autoIncrement
  | m_primaryKey => f_primaryKey
  | m_references _ | m_onDelete _ | m_onUpdate _ => f_references
  | m_unique => f_unique
  | m_notNull => f_notNull
  | m_unsigned => f_unsigned
  | m_defaultTo _ => f_defaultTo
  | m_check _ => f_check
  | m_generatedAlwaysAs _ | m_generatedAlwaysAsIdentity
  | m_generatedByDefaultAsIdentity | m_stored => f_generated
  end.

(** The methods whose new value is built from the arguments alone;
    [onDelete], [onUpdate] and [stored] clone the present value of their
    field instead. *)
Definition overwrites (m : Method) : bool :=
  match m with
  | m_onDelete _ | m_onUpdate _ | m_stored => false
  | _ => true
  end.

(** Two outcomes agree when both return the same value or both throw. *)
Definition same_outcome {A} (o1 o2 : Outcome A) : Prop :=
  match o1, o2 with
  | Returned a1, Returned a2 => a1 = a2
  | Thrown _, Thrown _ => True
  | _, _ => False
  end.

(** The node at the end of a chain as a function of the node of the
    receiver: the calls hand their nodes on, up to the first that throws. *)
Fixpoint transforms (ms : list Method) (node : ColumnDefinitionNode.t)
  : Outcome ColumnDefinitionNode.t :=
  match ms with
  | [] => Returned node
  | m :: ms' =>
      match transform m node with
      | Returned node' => transforms ms' node'
      | Thrown e => Thrown e
      end
  end.

(** [node'] keeps what [node] has: the column, the base type, every
    sub-node that is present (possibly with another content) and every flag
    that is [true]. *)
Definition keeps (node node' : ColumnDefinitionNode.t) : Prop :=
  ColumnDefinitionNode.column node' = ColumnDefinitionNode.column node
  /\ ColumnDefinitionNode.dataType node' = ColumnDefinitionNode.dataType node
  /\ (is_Some (ColumnDefinitionNode.references node) ->
      is_Some (ColumnDefinitionNode.references node'))
  /\ (is_Some (ColumnDefinitionNode.defaultTo node) ->
      is_Some (ColumnDefinitionNode.defaultTo node'))
  /\ (is_Some (ColumnDefinitionNode.check node) ->
      is_Some (ColumnDefinitionNode.check node'))
  /\ (is_Some (ColumnDefinitionNode.generated node) ->
      is_Some (ColumnDefinitionNode.generated node'))
  /\ (ColumnDefinitionNode.primaryKey node = Some true ->
      ColumnDefinitionNode.primaryKey node' = Some true)
  /\ (ColumnDefinitionNode.autoIncrement node = Some true ->
      ColumnDefinitionNode.autoIncrement node' = Some true)
  /\ (ColumnDefinitionNode.unique node = Some true ->
      ColumnDefinitionNode.unique node' = Some true)
  /\ (ColumnDefinitionNode.notNull node = Some true ->
      ColumnDefinitionNode.notNull node' = Some true)
  /\ (ColumnDefinitionNode.unsigned node = Some true ->
      ColumnDefinitionNode.unsigned node' = Some true).

(** ** Example nodes *)

(** A node used in the examples: a fresh integer column [owner_id]. *)
Definition owner_id : ColumnDefinitionNode.t :=
  ColumnDefinitionNode.mk (ColumnNode.create "owner_id") "integer"
    None None None None None None None None None.

Definition rawExpression (sql : string) : AnyRawBuilder.t :=
  AnyRawBuilder.mk (RawNode.mk [sql] []).

(** A column that already references [person.id] with both actions set. *)
Definition owner_id_fk : ColumnDefinitionNode.t :=
  ColumnDefinitionNode.mk (ColumnNode.create "owner_id") "integer"
    (Some (ReferencesNode.mk (TableNode.mk None "person") [ColumnNode.create "id"]
                             (Some cascade) (Some restrict)))
    None None None None None None None None.

(** A column generated from an expression. *)
Definition full_name : ColumnDefinitionNode.t :=
  ColumnDefinitionNode.mk (ColumnNode.create "full_name") "varchar(255)"
    None None None None None None None None
    (Some (GeneratedNode.createWithExpression
             (AnyRawBuilder.toOperationNode (rawExpression "concat(first_name, last_name)")))).

(** ** Basic facts about the monad and the heap *)

Lemma get_node_Some (h : Heap) (b : ColumnDefinitionBuilder) (node : ColumnDefinitionNode.t) :
  h !! b = Some node -> get_node b h = (Returned node, h).
Proof. intros Hb. unfold get_node. now rewrite Hb. Qed.

Lemma lookup_new (h : Heap) (node : ColumnDefinitionNode.t) :
  (h ++ [node]) !! length h = Some node.
Proof. rewrite lookup_app_r by lia. now rewrite Nat.sub_diag. Qed.

Lemma lookup_old (h : Heap) (node n : ColumnDefinitionNode.t) (b : ColumnDefinitionBuilder) :
  h !! b = Some n -> (h ++ [node]) !! b = Some n.
Proof. intros Hb. rewrite lookup_app_l; [done | by eapply lookup_lt_Some]. Qed.

Lemma lookup_fresh (h : Heap) : h !! length h = None.
Proof. apply lookup_ge_None. lia. Qed.

(** Unfolds the methods of the builder down to heap operations. *)
Ltac unfold_builder :=
  unfold Builder.autoIncrement, Builder.primaryKey, Builder.references,
    Builder.onDelete, Builder.onUpdate, Builder.unique, Builder.notNull,
    Builder.unsigned, Builder.defaultTo, Builder.check, Builder.generatedAlwaysAs,
    Builder.generatedAlwaysAsIdentity, Builder.generatedByDefaultAsIdentity,
    Builder.stored, Builder.toOperationNode, bind, lift, throw.

(** Evaluates [transform] on a symbolic node. *)
Ltac run_transform :=
  unfold transform; cbn -[parseStringReference]; unfold_builder;
  cbn -[parseStringReference].

(** Every call reads [#node] once and, unless it throws, allocates one
    builder: its effect on any heap is given by [transform]. *)
Lemma call_transform (m : Method) (h : Heap) (b : ColumnDefinitionBuilder)
      (node : ColumnDefinitionNode.t) :
  h !! b = Some node ->
  call m b h = match transform m node with
               | Returned node' => (Returned (length h), h ++ [node'])
               | Thrown e => (Thrown e, h)
               end.
Proof.
  intros Hb.
  destruct m; unfold transform; cbn -[parseStringReference];
    unfold_builder;
    try (rewrite (get_node_Some h b node Hb); cbn; try reflexivity).
  - destruct (parseStringReference ref) as [[c|[t [c|]]]|e]; cbn;
      try rewrite (get_node_Some h b node Hb); reflexivity.
  - destruct (ColumnDefinitionNode.references node); reflexivity.
  - destruct (ColumnDefinitionNode.references node); reflexivity.
  - destruct (ColumnDefinitionNode.generated node); reflexivity.
Qed.

(** ** Chains *)

Lemma extracted_nil (h : Heap) (B : ColumnDefinitionBuilder) (node : ColumnDefinitionNode.t) :
  h !! B = Some node -> extracted [] B h = Returned node.
Proof.
  intros HB. unfold extracted, chain, bind, ret, Builder.toOperationNode.
  now rewrite (get_node_Some h B node HB).
Qed.

Lemma extracted_cons (m : Method) (ms : list Method) (h : Heap)
      (B : ColumnDefinitionBuilder) (node : ColumnDefinitionNode.t) :
  h !! B = Some node ->
  extracted (m :: ms) B h
  = match transform m node with
    | Returned node' => extracted ms (length h) (h ++ [node'])
    | Thrown e => Thrown e
    end.
Proof.
  intros HB. unfold extracted. cbn [chain]. unfold bind at 1 2.
  rewrite (call_transform m h B node HB).
  destruct (transform m node); reflexivity.
Qed.

(** Rewrites the extraction at the end of a chain, call by call. *)
Ltac run_chain HB :=
  repeat first
    [ rewrite (extracted_cons _ _ _ _ _ HB)
    | rewrite (extracted_nil _ _ _ HB)
    | rewrite (extracted_cons _ _ _ _ _ (lookup_new _ _))
    | rewrite (extracted_nil _ _ _ (lookup_new _ _))
    | progress run_transform ].

(** ** Immutability *)

(** C1.  For every builder [B] of the heap and every chainable method [m]
    of the builder, the call [B.m(...)] leaves the node wrapped by [B], and
    by every other existing builder, as it was: [B.toOperationNode()]
    returns the same node before and after the call.  When the call
    returns, what it returns is a new builder object (one that did not
    exist before, hence different from [B]); when it throws, the heap is
    exactly the heap before the call. *)
Theorem builder_immutable (m : Method) (h : Heap) (B : ColumnDefinitionBuilder)
        (node : ColumnDefinitionNode.t) :
  h !! B = Some node ->
  match call m B h with
  | (result, h') =>
      Builder.toOperationNode B h = (Returned node, h)
      /\ Builder.toOperationNode B h' = (Returned node, h')
      /\ (forall b n, h !! b = Some n -> h' !! b = Some n)
      /\ match result with
         | Returned B' => h !! B' = None /\ B' <> B /\ is_Some (h' !! B')
         | Thrown _ => h' = h
         end
  end.
Proof.
  intros HB. rewrite (call_transform m h B node HB).
  unfold Builder.toOperationNode.
  destruct (transform m node) as [node'|e].
  - split; [by apply get_node_Some|].
    split; [by apply get_node_Some, lookup_old|].
    split; [intros b n Hb; by apply lookup_old|].
    split; [apply lookup_fresh|].
    split.
    + intros <-. rewrite lookup_fresh in HB. discriminate.
    + exists node'. apply lookup_new.
  - repeat split; try by apply get_node_Some. auto.
Qed.

Lemma builder_immutable_witness :
  [owner_id] !! 0 = Some owner_id
  /\ match call (m_references "person.id") 0 [owner_id] with
     | (result, h') =>
         Builder.toOperationNode 0 [owner_id] = (Returned owner_id, [owner_id])
         /\ Builder.toOperationNode 0 h' = (Returned owner_id, h')
         /\ (forall b n, [owner_id] !! b = Some n -> h' !! b = Some n)
         /\ match result with
            | Returned B' => [owner_id] !! B' = None /\ B' <> 0 /\ is_Some (h' !! B')
            | Thrown _ => h' = [owner_id]
            end
     end.
Proof.
  split; [reflexivity|].
  apply (builder_immutable (m_references "person.id") [owner_id] 0 owner_id).
  reflexivity.
Defined.

(** ** Foreign-key references *)

(** C2.  On every builder, [references('a.b')] returns a new builder whose
    node carries a references sub-node with table [a] and column list
    [[b]]; [references('a.b.c')] one with schema [a], table [b] and column
    list [[c]]; and [references('a')], [references('')] and
    [references('a.*')] each throw a malformed-reference error and allocate
    nothing. *)
Theorem references_examples (h : Heap) (B : ColumnDefinitionBuilder)
        (node : ColumnDefinitionNode.t) :
  h !! B = Some node ->
  (exists node',
      Builder.references B "a.b" h = (Returned (length h), h ++ [node'])
      /\ ColumnDefinitionNode.references node'
         = Some (ReferencesNode.mk (TableNode.mk None "a") [ColumnNode.mk "b"] None None))
  /\ (exists node',
      Builder.references B "a.b.c" h = (Returned (length h), h ++ [node'])
      /\ ColumnDefinitionNode.references node'
         = Some (ReferencesNode.mk (TableNode.mk (Some "a") "b") [ColumnNode.mk "c"] None None))
  /\ (exists message, Builder.references B "a" h = (Thrown (MalformedReference message), h))
  /\ (exists message, Builder.references B EmptyString h = (Thrown (MalformedReference message), h))
  /\ Builder.references B "a.*" h
     = (Thrown (MalformedReference
                  "invalid call references('a.*'). The reference must have format table.column or schema.table.column"),
        h).
Proof.
  intros HB.
  split; [|split; [|split; [|split]]].
  - eexists. split.
    + change (Builder.references B "a.b" h) with (call (m_references "a.b") B h).
      rewrite (call_transform _ h B node HB). reflexivity.
    + reflexivity.
  - eexists. split.
    + change (Builder.references B "a.b.c" h) with (call (m_references "a.b.c") B h).
      rewrite (call_transform _ h B node HB). reflexivity.
    + reflexivity.
  - eexists. reflexivity.
  - eexists. reflexivity.
  - reflexivity.
Qed.

Lemma references_examples_witness :
  [owner_id] !! 0 = Some owner_id
  /\ Builder.references 0 "a.*" [owner_id]
     = (Thrown (MalformedReference
                  "invalid call references('a.*'). The reference must have format table.column or schema.table.column"),
        [owner_id]).
Proof.
  split; [reflexivity|].
  apply (references_examples [owner_id] 0 owner_id). reflexivity.
Defined.

(** C3.  On a builder wrapping [node], [onDelete(action)] and
    [onUpdate(action)] throw exactly when [node] carries no references
    sub-node, and what they throw then is a precondition violation that
    allocates nothing.  When [node] carries the references sub-node
    [refs], each call returns a new builder whose node carries [refs] with
    the given action set: same table, same columns, and the other action
    as it was. *)
Theorem onDelete_onUpdate_precondition (h : Heap) (B : ColumnDefinitionBuilder)
        (node : ColumnDefinitionNode.t) (action : OnModifyForeignAction) :
  h !! B = Some node ->
  ((exists e, fst (Builder.onDelete B action h) = Thrown e)
   <-> ColumnDefinitionNode.references node = None)
  /\ ((exists e, fst (Builder.onUpdate B action h) = Thrown e)
      <-> ColumnDefinitionNode.references node = None)
  /\ (ColumnDefinitionNode.references node = None ->
      Builder.onDelete B action h
      = (Thrown (PreconditionViolation "on delete constraint can only be added for foreign keys"), h)
      /\ Builder.onUpdate B action h
         = (Thrown (PreconditionViolation "on update constraint can only be added for foreign keys"), h))
  /\ (forall refs, ColumnDefinitionNode.references node = Some refs ->
      (exists node',
          Builder.onDelete B action h = (Returned (length h), h ++ [node'])
          /\ ColumnDefinitionNode.references node'
             = Some (ReferencesNode.mk (ReferencesNode.table refs) (ReferencesNode.columns refs)
                                       (Some action) (ReferencesNode.onUpdate refs)))
      /\ (exists node',
          Builder.onUpdate B action h = (Returned (length h), h ++ [node'])
          /\ ColumnDefinitionNode.references node'
             = Some (ReferencesNode.mk (ReferencesNode.table refs) (ReferencesNode.columns refs)
                                       (ReferencesNode.onDelete refs) (Some action)))).
Proof.
  intros HB.
  change (Builder.onDelete B action h) with (call (m_onDelete action) B h).
  change (Builder.onUpdate B action h) with (call (m_onUpdate action) B h).
  rewrite !(call_transform _ h B node HB).
  run_transform.
  destruct (ColumnDefinitionNode.references node) as [refs|] eqn:Hrefs; cbn.
  - split; [split; [intros [e He]; discriminate | intros ?; discriminate]|].
    split; [split; [intros [e He]; discriminate | intros ?; discriminate]|].
    split; [intros ?; discriminate|].
    intros refs' [= <-]. split; eexists; (split; [reflexivity|]); cbn; reflexivity.
  - split; [split; eauto|].
    split; [split; eauto|].
    split; [auto|].
    intros ? ?; discriminate.
Qed.

Lemma onDelete_onUpdate_precondition_witness :
  [owner_id] !! 0 = Some owner_id
  /\ ((exists e, fst (Builder.onDelete 0 cascade [owner_id]) = Thrown e)
      <-> ColumnDefinitionNode.references owner_id = None).
Proof.
  split; [reflexivity|].
  apply (onDelete_onUpdate_precondition [owner_id] 0 owner_id cascade). reflexivity.
Defined.

(** C5.  A successful [references(ref)] installs a fresh references
    sub-node: it has neither an [onDelete] nor an [onUpdate] action, and it
    is the same sub-node on whatever builder the call is made, so nothing
    of a previous references sub-node of the receiver survives. *)
Theorem references_replaces (h h' : Heap) (B B' : ColumnDefinitionBuilder)
        (node : ColumnDefinitionNode.t) (ref : string) :
  h !! B = Some node ->
  Builder.references B ref h = (Returned B', h') ->
  exists node' refs',
    h' !! B' = Some node'
    /\ ColumnDefinitionNode.references node' = Some refs'
    /\ ReferencesNode.onDelete refs' = None
    /\ ReferencesNode.onUpdate refs' = None
    /\ forall (h2 : Heap) (B2 : ColumnDefinitionBuilder) (node2 : ColumnDefinitionNode.t),
        h2 !! B2 = Some node2 ->
        exists node2',
          Builder.references B2 ref h2 = (Returned (length h2), h2 ++ [node2'])
          /\ ColumnDefinitionNode.references node2' = Some refs'.
Proof.
  intros HB.
  change (Builder.references B ref h) with (call (m_references ref) B h).
  rewrite (call_transform _ h B node HB).
  assert (Hall : forall h2 B2 node2, h2 !! B2 = Some node2 ->
            Builder.references B2 ref h2
            = match transform (m_references ref) node2 with
              | Returned node' => (Returned (length h2), h2 ++ [node'])
              | Thrown e => (Thrown e, h2)
              end).
  { intros h2 B2 node2 H2. apply (call_transform (m_references ref) h2 B2 node2 H2). }
  revert Hall. run_transform.
  destruct (parseStringReference ref) as [[c|[t [c|]]]|e]; cbn;
    intros Hall Hcall; try discriminate.
  injection Hcall as <- <-.
  eexists. eexists.
  split; [apply lookup_new|].
  split; [reflexivity|].
  split; [reflexivity|].
  split; [reflexivity|].
  intros h2 B2 node2 H2. eexists. split; [apply (Hall h2 B2 node2 H2)|reflexivity].
Qed.

Lemma references_replaces_witness :
  exists node' refs',
    ([owner_id_fk] ++ [ColumnDefinitionNode.cloneWith owner_id_fk
        [ColumnDefinitionNode.set_references
           (ReferencesNode.create (TableNode.mk None "pet") [ColumnNode.create "id"])]])
      !! 1 = Some node'
    /\ ColumnDefinitionNode.references node' = Some refs'
    /\ ReferencesNode.onDelete refs' = None
    /\ ReferencesNode.onUpdate refs' = None
    /\ forall (h2 : Heap) (B2 : ColumnDefinitionBuilder) (node2 : ColumnDefinitionNode.t),
        h2 !! B2 = Some node2 ->
        exists node2',
          Builder.references B2 "pet.id" h2 = (Returned (length h2), h2 ++ [node2'])
          /\ ColumnDefinitionNode.references node2' = Some refs'.
Proof.
  apply (references_replaces [owner_id_fk] _ 0 1 owner_id_fk "pet.id"); reflexivity.
Defined.

(** The end-to-end scenario
    [col.references('person.id').onDelete('cascade').onUpdate('restrict')]. *)
Example foreign_key_scenario :
  extracted [m_references "person.id"; m_onDelete cascade; m_onUpdate restrict] 0 [owner_id]
  = Returned owner_id_fk.
Proof. reflexivity. Qed.

(** ** Generated columns *)

(** C4.  On a builder wrapping [node], [stored()] throws exactly when
    [node] carries no generated sub-node, whatever the form of that
    sub-node.  When [node] carries the generated sub-node [g], the call
    returns a new builder whose generated sub-node is [g] with [stored]
    set to [true]: the expression and the identity fields are those of
    [g].  In particular [stored()] returns right after each of
    [generatedAlwaysAs(expr)], [generatedAlwaysAsIdentity()] and
    [generatedByDefaultAsIdentity()]. *)
Theorem stored_precondition (h : Heap) (B : ColumnDefinitionBuilder)
        (node : ColumnDefinitionNode.t) (expr : AnyRawBuilder.t) :
  h !! B = Some node ->
  ((exists e, fst (Builder.stored B h) = Thrown e)
   <-> ColumnDefinitionNode.generated node = None)
  /\ (ColumnDefinitionNode.generated node = None ->
      Builder.stored B h
      = (Thrown (PreconditionViolation "stored() can only be called after generatedAlwaysAs"), h))
  /\ (forall g, ColumnDefinitionNode.generated node = Some g ->
      exists node',
        Builder.stored B h = (Returned (length h), h ++ [node'])
        /\ ColumnDefinitionNode.generated node'
           = Some (GeneratedNode.mk (GeneratedNode.byDefault g) (GeneratedNode.always g)
                                    (GeneratedNode.identity g) (Some true)
                                    (GeneratedNode.expression g)))
  /\ (forall generate,
      generate ∈ [m_generatedAlwaysAs expr; m_generatedAlwaysAsIdentity;
                  m_generatedByDefaultAsIdentity] ->
      exists node' g,
        extracted [generate; m_stored] B h = Returned node'
        /\ ColumnDefinitionNode.generated node' = Some g
        /\ GeneratedNode.stored g = Some true).
Proof.
  intros HB.
  split; [|split; [|split]].
  4: { intros generate Hin.
       repeat (apply elem_of_cons in Hin as [->|Hin]);
         [run_chain HB; eexists; eexists; (split; [reflexivity|]); split; reflexivity ..|].
       by apply elem_of_nil in Hin. }
  all: change (Builder.stored B h) with (call m_stored B h);
    rewrite !(call_transform _ h B node HB);
    run_transform;
    destruct (ColumnDefinitionNode.generated node) as [g|] eqn:Hg; cbn.
  - split; [intros [e He]; discriminate | intros ?; discriminate].
  - split; eauto.
  - intros ?; discriminate.
  - auto.
  - intros g' [= <-]. eexists. split; reflexivity.
  - intros ? ?; discriminate.
Qed.

Lemma stored_precondition_witness :
  [owner_id] !! 0 = Some owner_id
  /\ ((exists e, fst (Builder.stored 0 [owner_id]) = Thrown e)
      <-> ColumnDefinitionNode.generated owner_id = None).
Proof.
  split; [reflexivity|].
  apply (stored_precondition [owner_id] 0 owner_id (rawExpression "1")). reflexivity.
Defined.

(** C6.  On every builder, whatever generated sub-node its node has (an
    expression-form one in particular), [generatedAlwaysAsIdentity()] and
    [generatedByDefaultAsIdentity()] return a new builder whose generated
    sub-node is the identity specifier alone, with no expression; and
    whatever generated sub-node its node has (an identity-form one in
    particular), [generatedAlwaysAs(expr)] returns a new builder whose
    generated sub-node is the expression-form node of [expr], with no
    identity, [byDefault] or [stored] field. *)
Theorem generated_replaces (h : Heap) (B : ColumnDefinitionBuilder)
        (node : ColumnDefinitionNode.t) (expr : AnyRawBuilder.t) :
  h !! B = Some node ->
  (exists node',
      Builder.generatedAlwaysAsIdentity B h = (Returned (length h), h ++ [node'])
      /\ ColumnDefinitionNode.generated node'
         = Some (GeneratedNode.mk None (Some true) (Some true) None None))
  /\ (exists node',
      Builder.generatedByDefaultAsIdentity B h = (Returned (length h), h ++ [node'])
      /\ ColumnDefinitionNode.generated node'
         = Some (GeneratedNode.mk (Some true) None (Some true) None None))
  /\ (exists node' g',
      Builder.generatedAlwaysAs B expr h = (Returned (length h), h ++ [node'])
      /\ ColumnDefinitionNode.generated node' = Some g'
      /\ g' = GeneratedNode.createWithExpression (AnyRawBuilder.toOperationNode expr)
      /\ GeneratedNode.expression g' = Some (AnyRawBuilder.toOperationNode expr)
      /\ GeneratedNode.identity g' = None
      /\ GeneratedNode.byDefault g' = None
      /\ GeneratedNode.stored g' = None).
Proof.
  intros HB.
  change (Builder.generatedAlwaysAsIdentity B h) with (call m_generatedAlwaysAsIdentity B h).
  change (Builder.generatedByDefaultAsIdentity B h) with (call m_generatedByDefaultAsIdentity B h).
  change (Builder.generatedAlwaysAs B expr h) with (call (m_generatedAlwaysAs expr) B h).
  rewrite !(call_transform _ h B node HB).
  run_transform.
  split; [eexists; split; reflexivity|].
  split; [eexists; split; reflexivity|].
  eexists. eexists. split; [reflexivity|]. cbn. repeat split.
Qed.

Lemma generated_replaces_witness :
  [full_name] !! 0 = Some full_name
  /\ exists node',
      Builder.generatedAlwaysAsIdentity 0 [full_name] = (Returned 1, [full_name] ++ [node'])
      /\ ColumnDefinitionNode.generated node'
         = Some (GeneratedNode.mk None (Some true) (Some true) None None).
Proof.
  split; [reflexivity|].
  apply (generated_replaces [full_name] 0 full_name (rawExpression "1")). reflexivity.
Defined.

(** ** Flags and call order *)

(** C7.  Each of [autoIncrement()], [primaryKey()], [unique()],
    [notNull()] and [unsigned()] returns on every builder (it never
    throws), wraps a node whose corresponding flag is [true], and is
    idempotent: the node extracted from [m(m(B))] is the node extracted
    from [m(B)]. *)
Theorem flag_methods_idempotent (m : Method) (flag : ColumnDefinitionNode.t -> option bool)
        (h : Heap) (B : ColumnDefinitionBuilder) (node : ColumnDefinitionNode.t) :
  flag_of m = Some flag ->
  h !! B = Some node ->
  exists node',
    call m B h = (Returned (length h), h ++ [node'])
    /\ flag node' = Some true
    /\ extracted [m] B h = Returned node'
    /\ extracted [m; m] B h = Returned node'.
Proof.
  intros Hflag HB.
  destruct m; cbn in Hflag; try discriminate; injection Hflag as <-;
    rewrite (call_transform _ h B node HB); run_chain HB;
    eexists; (split; [reflexivity|]); (split; [reflexivity|]);
    split; reflexivity.
Qed.

Lemma flag_methods_idempotent_witness :
  exists node',
    call m_notNull 0 [owner_id] = (Returned 1, [owner_id] ++ [node'])
    /\ ColumnDefinitionNode.notNull node' = Some true
    /\ extracted [m_notNull] 0 [owner_id] = Returned node'
    /\ extracted [m_notNull; m_notNull] 0 [owner_id] = Returned node'.
Proof.
  apply (flag_methods_idempotent m_notNull ColumnDefinitionNode.notNull [owner_id] 0 owner_id);
    reflexivity.
Defined.

(** C8.  For every builder [col] and raw expression [expr], calling
    [check(expr)], [unique()] and [notNull()] in any order yields the same
    node: the node of [col] with [check] set to the check constraint over
    the node of [expr] and with [unique] and [notNull] both [true]. *)
Theorem check_unique_notNull_commute (ms : list Method) (expr : AnyRawBuilder.t)
        (h : Heap) (col : ColumnDefinitionBuilder) (node : ColumnDefinitionNode.t) :
  h !! col = Some node ->
  ms ≡ₚ [m_check expr; m_unique; m_notNull] ->
  extracted [m_check expr; m_unique; m_notNull] col h
  = Returned (ColumnDefinitionNode.mk
                (ColumnDefinitionNode.column node) (ColumnDefinitionNode.dataType node)
                (ColumnDefinitionNode.references node) (ColumnDefinitionNode.primaryKey node)
                (ColumnDefinitionNode.autoIncrement node) (Some true) (Some true)
                (ColumnDefinitionNode.unsigned node) (ColumnDefinitionNode.defaultTo node)
                (Some (CheckConstraintNode.create (AnyRawBuilder.toOperationNode expr)))
                (ColumnDefinitionNode.generated node))
  /\ extracted ms col h = extracted [m_check expr; m_unique; m_notNull] col h.
Proof.
  intros Hcol Hperm.
  split; [run_chain Hcol; reflexivity|].
  symmetry in Hperm. apply permutations_Permutation in Hperm.
  cbv [permutations interleave mbind list_bind fmap list_fmap app mret list_ret] in Hperm.
  repeat (apply elem_of_cons in Hperm as [->|Hperm]);
    [run_chain Hcol; reflexivity ..|].
  by apply elem_of_nil in Hperm.
Qed.

Lemma check_unique_notNull_commute_witness :
  extracted [m_notNull; m_check (rawExpression "owner_id > 0"); m_unique] 0 [owner_id]
  = extracted [m_check (rawExpression "owner_id > 0"); m_unique; m_notNull] 0 [owner_id].
Proof.
  apply (check_unique_notNull_commute
           [m_notNull; m_check (rawExpression "owner_id > 0"); m_unique]
           (rawExpression "owner_id > 0") [owner_id] 0 owner_id).
  - reflexivity.
  - eapply perm_trans; [apply perm_swap | apply perm_skip, perm_swap].
Defined.

(** ** The single-column invariant *)

Lemma transform_single_column (m : Method) (node node' : ColumnDefinitionNode.t) :
  single_column node -> transform m node = Returned node' -> single_column node'.
Proof.
  unfold single_column.
  destruct m; run_transform;
    try (destruct (parseStringReference ref) as [[c|[t [c|]]]|e]; cbn);
    destruct (ColumnDefinitionNode.references node) as [refs|];
    destruct (ColumnDefinitionNode.generated node) as [g|]; cbn;
    intros Hnode H; try discriminate; injection H as <-; cbn; auto.
Qed.

Lemma chain_single_column (ms : list Method) :
  forall (h : Heap) (B : ColumnDefinitionBuilder) (node : ColumnDefinitionNode.t),
    h !! B = Some node ->
    Forall single_column h ->
    Forall single_column (snd (chain ms B h)).
Proof.
  induction ms as [|m ms IH]; intros h B node HB Hh; [exact Hh|].
  cbn [chain]. unfold bind. rewrite (call_transform m h B node HB).
  destruct (transform m node) as [node'|e] eqn:Hm; [|exact Hh].
  apply (IH _ _ node' (lookup_new h node')).
  apply Forall_app. split; [exact Hh|].
  apply Forall_singleton.
  apply (transform_single_column m node node'); [|exact Hm].
  by apply (Forall_lookup_1 _ _ _ _ Hh HB).
Qed.

(** C10.  On a builder wrapping [node]: a successful [references(ref)]
    returns a builder whose references sub-node has a column list of
    exactly one element; a successful [onDelete(action)] or
    [onUpdate(action)] returns a builder whose references sub-node has the
    table and the column list of the one in [node]; and if every node of
    the heap has at most single-column references, then after any chain of
    calls on [B], whether it completes or throws midway, every node of the
    heap still has, so what any builder extracts targets exactly one
    column whenever it has a references sub-node. *)
Theorem references_single_column (h : Heap) (B : ColumnDefinitionBuilder)
        (node : ColumnDefinitionNode.t) :
  h !! B = Some node ->
  (forall ref B' h',
      Builder.references B ref h = (Returned B', h') ->
      exists node' refs' column,
        h' !! B' = Some node'
        /\ ColumnDefinitionNode.references node' = Some refs'
        /\ ReferencesNode.columns refs' = [column])
  /\ (forall action refs B' h',
      ColumnDefinitionNode.references node = Some refs ->
      Builder.onDelete B action h = (Returned B', h')
      \/ Builder.onUpdate B action h = (Returned B', h') ->
      exists node' refs',
        h' !! B' = Some node'
        /\ ColumnDefinitionNode.references node' = Some refs'
        /\ ReferencesNode.table refs' = ReferencesNode.table refs
        /\ ReferencesNode.columns refs' = ReferencesNode.columns refs)
  /\ (forall ms,
      Forall single_column h ->
      Forall single_column (snd (chain ms B h))
      /\ forall b extractedNode refs,
          Builder.toOperationNode b (snd (chain ms B h))
          = (Returned extractedNode, snd (chain ms B h)) ->
          ColumnDefinitionNode.references extractedNode = Some refs ->
          length (ReferencesNode.columns refs) = 1).
Proof.
  intros HB.
  split; [|split].
  - intros ref B' h'.
    change (Builder.references B ref h) with (call (m_references ref) B h).
    rewrite (call_transform _ h B node HB). run_transform.
    destruct (parseStringReference ref) as [[c|[t [c|]]]|e]; cbn;
      (intros [= <- <-] || discriminate).
    eexists. eexists. eexists.
    split; [apply lookup_new|]. split; reflexivity.
  - intros action refs B' h' Hrefs.
    change (Builder.onDelete B action h) with (call (m_onDelete action) B h).
    change (Builder.onUpdate B action h) with (call (m_onUpdate action) B h).
    rewrite !(call_transform _ h B node HB). run_transform. rewrite Hrefs. cbn.
    intros [[= <- <-]|[= <- <-]]; eexists; eexists;
      (split; [apply lookup_new|]); (split; [reflexivity|]); split; reflexivity.
  - intros ms Hh.
    pose proof (chain_single_column ms h B node HB Hh) as Hall.
    split; [exact Hall|].
    intros b extractedNode refs. unfold Builder.toOperationNode, get_node.
    destruct (snd (chain ms B h) !! b) as [n|] eqn:Hb; [|discriminate].
    intros [= <-] Hrefs.
    pose proof (Forall_lookup_1 _ _ _ _ Hall Hb) as Hn.
    unfold single_column in Hn. now rewrite Hrefs in Hn.
Qed.

Lemma references_single_column_witness :
  [owner_id] !! 0 = Some owner_id
  /\ Forall single_column [owner_id]
  /\ Forall single_column
       (snd (chain [m_references "person.id"; m_onDelete cascade; m_onUpdate restrict]
                   0 [owner_id])).
Proof.
  assert (H0 : [owner_id] !! 0 = Some owner_id) by reflexivity.
  assert (Hh : Forall single_column [owner_id]) by (repeat constructor).
  split; [exact H0|]. split; [exact Hh|].
  exact (proj1 (proj2 (proj2 (references_single_column [owner_id] 0 owner_id H0))
                 [m_references "person.id"; m_onDelete cascade; m_onUpdate restrict] Hh)).
Defined.

(** ** Accumulation of having conditions *)

Section HavingFacts.
Import Having.

Lemma sql_or_assoc (a b c : SqlBool) :
  sql_or (sql_or a b) c = sql_or a (sql_or b c).
Proof. destruct a, b, c; reflexivity. Qed.

(** One [orHaving] call appends its condition with OR on top. *)
Lemma having_orHaving (args : HavingArgs) (query : QueryNode) :
  having (orHaving args query)
  = Some match having query with
         | Some accumulated => OrNode accumulated (parseHaving args)
         | None => parseHaving args
         end.
Proof. reflexivity. Qed.

(** C9.  Three successive [orHaving] calls with conditions [C1], [C2],
    [C3], with calls on other clause types before, between and after
    them in any position, leave a having clause that is the previously
    accumulated clause, if any, followed by [C1], [C2], [C3] joined by OR
    at the top level; on a builder with no having clause yet, the clause
    is the tree [(C1 OR C2) OR C3], whose value on every row is that of
    [C1 OR C2 OR C3]. *)
Theorem orHaving_accumulates (c1 c2 c3 : HavingArgs)
        (f0 f1 f2 f3 : QueryNode -> QueryNode) (query : QueryNode) :
  other_clause f0 -> other_clause f1 -> other_clause f2 -> other_clause f3 ->
  let result := f3 (orHaving c3 (f2 (orHaving c2 (f1 (orHaving c1 (f0 query)))))) in
  having result
  = Some match having query with
         | Some accumulated =>
             OrNode (OrNode (OrNode accumulated (parseHaving c1)) (parseHaving c2))
                    (parseHaving c3)
         | None => OrNode (OrNode (parseHaving c1) (parseHaving c2)) (parseHaving c3)
         end
  /\ (having query = None ->
      exists tree,
        having result = Some tree
        /\ forall atom,
            eval atom tree
            = sql_or (eval atom (parseHaving c1))
                     (sql_or (eval atom (parseHaving c2)) (eval atom (parseHaving c3)))).
Proof.
  intros H0 H1 H2 H3 result.
  assert (Hres : having result
                 = Some match having query with
                        | Some accumulated =>
                            OrNode (OrNode (OrNode accumulated (parseHaving c1))
                                           (parseHaving c2)) (parseHaving c3)
                        | None =>
                            OrNode (OrNode (parseHaving c1) (parseHaving c2)) (parseHaving c3)
                        end).
  { unfold result.
    rewrite H3, having_orHaving, H2, having_orHaving, H1, having_orHaving, H0.
    destruct (having query); reflexivity. }
  split; [exact Hres|].
  intros Hnone. rewrite Hnone in Hres.
  eexists. split; [exact Hres|].
  intros atom. cbn [eval]. apply sql_or_assoc.
Qed.

Lemma orHaving_accumulates_witness :
  having
    (id (orHaving example_c3 (example_groupBy (orHaving example_c2 (id (orHaving example_c1
       (example_groupBy (mkQuery None [] None))))))))
  = Some (OrNode (OrNode (parseHaving example_c1) (parseHaving example_c2))
                 (parseHaving example_c3)).
Proof.
  apply (orHaving_accumulates example_c1 example_c2 example_c3
           example_groupBy id example_groupBy id (mkQuery None [] None));
    intros q; reflexivity.
Defined.

End HavingFacts.

(** ** Laws of call chains *)

(** The extraction at the end of a chain depends on the heap only through
    the node of the receiver. *)
Lemma extracted_transforms (ms : list Method) :
  forall (h : Heap) (B : ColumnDefinitionBuilder) (node : ColumnDefinitionNode.t),
    h !! B = Some node -> extracted ms B h = transforms ms node.
Proof.
  induction ms as [|m ms IH]; intros h B node HB.
  - by apply extracted_nil.
  - rewrite (extracted_cons m ms h B node HB). cbn [transforms].
    destruct (transform m node) as [node'|e]; [|reflexivity].
    apply IH, lookup_new.
Qed.

(** A chain only appends to the heap: one builder per call that returns. *)
Lemma chain_appends (ms : list Method) :
  forall (h : Heap) (B : ColumnDefinitionBuilder) (node : ColumnDefinitionNode.t),
    h !! B = Some node ->
    exists new,
      snd (chain ms B h) = h ++ new
      /\ match fst (chain ms B h) with
         | Returned b =>
             length new = length ms
             /\ b = match ms with [] => B | _ :: _ => length h + length ms - 1 end
         | Thrown _ => length new < length ms
         end.
Proof.
  induction ms as [|m ms IH]; intros h B node HB.
  - exists []. cbn. rewrite app_nil_r. auto.
  - cbn [chain]. unfold bind. rewrite (call_transform m h B node HB).
    destruct (transform m node) as [node'|e].
    + destruct (IH (h ++ [node']) (length h) node' (lookup_new h node')) as (new & Hnew & Hres).
      exists (node' :: new). split.
      * rewrite Hnew. by rewrite <- app_assoc.
      * destruct (fst (chain ms (length h) (h ++ [node']))) as [b|e].
        -- destruct Hres as [Hlen ->]. split; [cbn; lia|].
           rewrite length_app. destruct ms; cbn; lia.
        -- cbn. lia.
    + exists []. cbn. rewrite app_nil_r. split; [reflexivity|lia].
Qed.

(** Splits the node of the receiver into its fields and decides every
    sub-node a method looks at. *)
Ltac split_node node :=
  destruct node as [col dt [refs|] pk ai un nn us df ck [gen|]].

(** Decides the results of the reference parser that a goal is stuck on. *)
Ltac split_parses :=
  repeat match goal with
    | |- context [parseStringReference ?r] =>
        destruct (parseStringReference r) as [[?|[? [?|]]]|?]; cbn
    end.

(** X1.  Two methods that write different fields of the node commute: on
    every builder, calling them in either order either returns builders
    with equal nodes or throws in both orders. *)
Theorem methods_on_different_fields_commute (m1 m2 : Method) (h : Heap)
        (B : ColumnDefinitionBuilder) (node : ColumnDefinitionNode.t) :
  h !! B = Some node ->
  written_field m1 <> written_field m2 ->
  same_outcome (extracted [m1; m2] B h) (extracted [m2; m1] B h).
Proof.
  intros HB Hfields.
  rewrite !(extracted_transforms _ h B node HB). clear HB.
  split_node node;
    destruct m1, m2; cbn in Hfields; try congruence; clear Hfields;
    cbn [transforms]; run_transform; split_parses; exact I || reflexivity.
Qed.

Lemma methods_on_different_fields_commute_witness :
  same_outcome (extracted [m_stored; m_references "person.id"] 0 [full_name])
               (extracted [m_references "person.id"; m_stored] 0 [full_name]).
Proof.
  apply (methods_on_different_fields_commute m_stored (m_references "person.id")
           [full_name] 0 full_name).
  - reflexivity.
  - discriminate.
Defined.

(** X2.  A method that builds its value from its arguments alone absorbs
    any call on the same field made just before it: if [B.m(...)] returns,
    then [B.m(...).w(...)] extracts what [B.w(...)] extracts (the same
    node, or the same error).  So a second [defaultTo], [check],
    [references] or [generated*] call replaces the first, and a new
    [references] or [generated*] call drops what [onDelete], [onUpdate] or
    [stored] had added. *)
Theorem overwriting_method_absorbs (m w : Method) (h : Heap)
        (B : ColumnDefinitionBuilder) (node : ColumnDefinitionNode.t) :
  h !! B = Some node ->
  overwrites w = true ->
  written_field m = written_field w ->
  (exists node1, extracted [m] B h = Returned node1) ->
  extracted [m; w] B h = extracted [w] B h.
Proof.
  intros HB Hw Hfields.
  rewrite !(extracted_transforms _ h B node HB). clear HB.
  split_node node;
    destruct m, w; cbn in Hfields, Hw; try congruence; clear Hfields Hw;
    cbn [transforms]; run_transform; split_parses;
    intros [node1 Hm]; try discriminate Hm; reflexivity.
Qed.

Lemma overwriting_method_absorbs_witness :
  extracted [m_stored; m_generatedByDefaultAsIdentity] 0 [full_name]
  = extracted [m_generatedByDefaultAsIdentity] 0 [full_name].
Proof.
  apply (overwriting_method_absorbs m_stored m_generatedByDefaultAsIdentity
           [full_name] 0 full_name); try reflexivity.
  eexists. reflexivity.
Defined.

(** X3.  [onDelete] and [onUpdate] commute: on every builder, the two
    orders either both throw (no references sub-node) or both return
    builders with the same node, whose references sub-node has the table
    and columns it had and both actions set. *)
Theorem onDelete_onUpdate_commute (a b : OnModifyForeignAction) (h : Heap)
        (B : ColumnDefinitionBuilder) (node : ColumnDefinitionNode.t) :
  h !! B = Some node ->
  same_outcome (extracted [m_onDelete a; m_onUpdate b] B h)
               (extracted [m_onUpdate b; m_onDelete a] B h)
  /\ forall refs,
      ColumnDefinitionNode.references node = Some refs ->
      exists node',
        extracted [m_onUpdate b; m_onDelete a] B h = Returned node'
        /\ ColumnDefinitionNode.references node'
           = Some (ReferencesNode.mk (ReferencesNode.table refs) (ReferencesNode.columns refs)
                                     (Some a) (Some b)).
Proof.
  intros HB.
  rewrite !(extracted_transforms _ h B node HB). clear HB.
  split_node node; cbn [transforms]; run_transform.
  1,2: split; [reflexivity|]; intros refs' [= <-]; eexists; split; reflexivity.
  all: split; [exact I|]; intros refs' Hrefs; discriminate Hrefs.
Qed.

Lemma onDelete_onUpdate_commute_witness :
  same_outcome (extracted [m_onDelete set_null; m_onUpdate no_action] 0 [owner_id_fk])
               (extracted [m_onUpdate no_action; m_onDelete set_null] 0 [owner_id_fk]).
Proof.
  apply (onDelete_onUpdate_commute set_null no_action [owner_id_fk] 0 owner_id_fk).
  reflexivity.
Defined.

(** X4.  Of two [onDelete] calls in a row the last one wins, likewise for
    [onUpdate], and [stored()] is idempotent: the chain of two extracts
    what the last call alone extracts, the error included when the
    precondition fails. *)
Theorem dependent_methods_last_wins (a1 a2 : OnModifyForeignAction) (h : Heap)
        (B : ColumnDefinitionBuilder) (node : ColumnDefinitionNode.t) :
  h !! B = Some node ->
  extracted [m_onDelete a1; m_onDelete a2] B h = extracted [m_onDelete a2] B h
  /\ extracted [m_onUpdate a1; m_onUpdate a2] B h = extracted [m_onUpdate a2] B h
  /\ extracted [m_stored; m_stored] B h = extracted [m_stored] B h.
Proof.
  intros HB.
  rewrite !(extracted_transforms _ h B node HB). clear HB.
  split_node node; cbn [transforms]; run_transform;
    try destruct gen; repeat split; reflexivity.
Qed.

Lemma dependent_methods_last_wins_witness :
  extracted [m_onDelete set_null; m_onDelete set_default] 0 [owner_id_fk]
  = extracted [m_onDelete set_default] 0 [owner_id_fk].
Proof.
  apply (dependent_methods_last_wins set_null set_default [owner_id_fk] 0 owner_id_fk).
  reflexivity.
Defined.

(** ** What a chain keeps *)

Lemma keeps_refl (node : ColumnDefinitionNode.t) : keeps node node.
Proof. unfold keeps. tauto. Qed.

Lemma keeps_trans (n1 n2 n3 : ColumnDefinitionNode.t) :
  keeps n1 n2 -> keeps n2 n3 -> keeps n1 n3.
Proof.
  unfold keeps.
  intros (Hc & Hd & H1) (Hc' & Hd' & H2).
  split; [congruence|]. split; [congruence|]. tauto.
Qed.

Lemma transform_keeps (m : Method) (node node' : ColumnDefinitionNode.t) :
  transform m node = Returned node' -> keeps node node'.
Proof.
  unfold keeps.
  split_node node; destruct m; run_transform; split_parses;
    intros H; try discriminate H; injection H as <-; cbn;
    repeat split; auto; intros [? ?]; discriminate.
Qed.

Lemma transforms_keeps (ms : list Method) :
  forall node node', transforms ms node = Returned node' -> keeps node node'.
Proof.
  induction ms as [|m ms IH]; intros node node'; cbn [transforms].
  - intros [= <-]. apply keeps_refl.
  - destruct (transform m node) as [node1|e] eqn:Hm; [|discriminate].
    intros Hms. apply (keeps_trans node node1 node').
    + by apply (transform_keeps m).
    + by apply IH.
Qed.

Lemma transforms_app (ms1 ms2 : list Method) :
  forall node,
    transforms (ms1 ++ ms2) node
    = match transforms ms1 node with
      | Returned node1 => transforms ms2 node1
      | Thrown e => Thrown e
      end.
Proof.
  induction ms1 as [|m ms1 IH]; intros node; cbn [transforms app]; [reflexivity|].
  destruct (transform m node); [apply IH|reflexivity].
Qed.

(** X5.  No chain of calls renames the column or changes its base type:
    the node extracted at the end has the column and the data type of the
    node the chain started from. *)
Theorem chain_keeps_column_and_type (ms : list Method) (h : Heap)
        (B : ColumnDefinitionBuilder) (node node' : ColumnDefinitionNode.t) :
  h !! B = Some node ->
  extracted ms B h = Returned node' ->
  ColumnDefinitionNode.column node' = ColumnDefinitionNode.column node
  /\ ColumnDefinitionNode.dataType node' = ColumnDefinitionNode.dataType node.
Proof.
  intros HB. rewrite (extracted_transforms ms h B node HB).
  intros Hms. destruct (transforms_keeps ms node node' Hms) as (Hc & Hd & _).
  by split.
Qed.

Lemma chain_keeps_column_and_type_witness :
  ColumnDefinitionNode.column owner_id_fk = ColumnDefinitionNode.column owner_id
  /\ ColumnDefinitionNode.dataType owner_id_fk = ColumnDefinitionNode.dataType owner_id.
Proof.
  apply (chain_keeps_column_and_type
           [m_references "person.id"; m_onDelete cascade; m_onUpdate restrict]
           [owner_id] 0 owner_id owner_id_fk); reflexivity.
Defined.

(** X6.  No method takes anything back: in the node extracted at the end
    of a chain, every flag that was [true] at the start is [true], and
    every sub-node ([references], [defaultTo], [check], [generated]) that
    was present at the start is present. *)
Theorem chain_never_unsets (ms : list Method) (h : Heap)
        (B : ColumnDefinitionBuilder) (node node' : ColumnDefinitionNode.t) :
  h !! B = Some node ->
  extracted ms B h = Returned node' ->
  (forall m flag, flag_of m = Some flag -> flag node = Some true -> flag node' = Some true)
  /\ (is_Some (ColumnDefinitionNode.references node) ->
      is_Some (ColumnDefinitionNode.references node'))
  /\ (is_Some (ColumnDefinitionNode.defaultTo node) ->
      is_Some (ColumnDefinitionNode.defaultTo node'))
  /\ (is_Some (ColumnDefinitionNode.check node) ->
      is_Some (ColumnDefinitionNode.check node'))
  /\ (is_Some (ColumnDefinitionNode.generated node) ->
      is_Some (ColumnDefinitionNode.generated node')).
Proof.
  intros HB. rewrite (extracted_transforms ms h B node HB).
  intros Hms.
  destruct (transforms_keeps ms node node' Hms)
    as (_ & _ & Hr & Hd & Hc & Hg & Hpk & Hai & Hun & Hnn & Hus).
  split; [|tauto].
  intros m flag Hflag. destruct m; cbn in Hflag; try discriminate;
    injection Hflag as <-; assumption.
Qed.

Lemma chain_never_unsets_witness :
  is_Some (ColumnDefinitionNode.generated
             (ColumnDefinitionNode.cloneWith full_name
                [ColumnDefinitionNode.set_unique true; ColumnDefinitionNode.set_notNull true])).
Proof.
  refine (proj2 (proj2 (proj2 (proj2
            (chain_never_unsets [m_unique; m_notNull] [full_name] 0 full_name _ _ _)))) _).
  - reflexivity.
  - reflexivity.
  - eexists. reflexivity.
Defined.

(** X7.  Once the prerequisite of a dependent method is there, it stays:
    if the node of [B] has a references sub-node, [onDelete] and
    [onUpdate] return at the end of every chain from [B] that returns, and
    if it has a generated sub-node, so does [stored()]. *)
Theorem dependent_calls_stay_enabled (ms : list Method) (action : OnModifyForeignAction)
        (h : Heap) (B : ColumnDefinitionBuilder) (node end_node : ColumnDefinitionNode.t) :
  h !! B = Some node ->
  extracted ms B h = Returned end_node ->
  (is_Some (ColumnDefinitionNode.references node) ->
   (exists node', extracted (ms ++ [m_onDelete action]) B h = Returned node')
   /\ (exists node', extracted (ms ++ [m_onUpdate action]) B h = Returned node'))
  /\ (is_Some (ColumnDefinitionNode.generated node) ->
      exists node', extracted (ms ++ [m_stored]) B h = Returned node').
Proof.
  intros HB. rewrite !(extracted_transforms _ h B node HB).
  intros Hms. rewrite !transforms_app, Hms.
  destruct (transforms_keeps ms node end_node Hms) as (_ & _ & Hr & _ & _ & Hg & _).
  cbn [transforms]. run_transform.
  split.
  - intros [refs Hrefs]%Hr. rewrite Hrefs. split; eexists; reflexivity.
  - intros [g Hgen]%Hg. rewrite Hgen. eexists; reflexivity.
Qed.

Lemma dependent_calls_stay_enabled_witness :
  exists node',
    extracted ([m_unique; m_generatedAlwaysAsIdentity] ++ [m_onDelete cascade]) 0 [owner_id_fk]
    = Returned node'.
Proof.
  refine (proj1 (proj1 (dependent_calls_stay_enabled
                          [m_unique; m_generatedAlwaysAsIdentity] cascade
                          [owner_id_fk] 0 owner_id_fk _ _ _) _)).
  - reflexivity.
  - reflexivity.
  - eexists. reflexivity.
Defined.

(** ** Heaps and forks *)

(** X8.  Chains that fork from one builder do not see each other:
    whatever chain was run from [B] before, whether it returned or threw,
    a chain run from [B] afterwards extracts exactly what it would have
    extracted had the first chain never run. *)
Theorem forked_chains_independent (ms1 ms2 : list Method) (h : Heap)
        (B : ColumnDefinitionBuilder) (node : ColumnDefinitionNode.t) :
  h !! B = Some node ->
  extracted ms2 B (snd (chain ms1 B h)) = extracted ms2 B h.
Proof.
  intros HB.
  destruct (chain_appends ms1 h B node HB) as (new & -> & _).
  rewrite (extracted_transforms ms2 h B node HB).
  apply extracted_transforms.
  by apply lookup_app_l_Some.
Qed.

Lemma forked_chains_independent_witness :
  extracted [m_unique] 0
    (snd (chain [m_references "person.id"; m_stored; m_notNull] 0 [owner_id]))
  = extracted [m_unique] 0 [owner_id].
Proof.
  apply (forked_chains_independent [m_references "person.id"; m_stored; m_notNull]
           [m_unique] [owner_id] 0 owner_id).
  reflexivity.
Defined.

(** X9.  A chain only ever appends to the heap.  Every builder that
    existed before keeps its node; a chain that returns has allocated
    exactly one builder per call and returns the last one allocated (the
    receiver itself when the chain is empty); a chain that throws has
    allocated fewer builders than it has calls. *)
Theorem chain_allocates (ms : list Method) (h : Heap)
        (B : ColumnDefinitionBuilder) (node : ColumnDefinitionNode.t) :
  h !! B = Some node ->
  exists new,
    snd (chain ms B h) = h ++ new
    /\ (forall b n, h !! b = Some n -> snd (chain ms B h) !! b = Some n)
    /\ match fst (chain ms B h) with
       | Returned b =>
           length new = length ms
           /\ b = match ms with [] => B | _ :: _ => length h + length ms - 1 end
           /\ is_Some (snd (chain ms B h) !! b)
       | Thrown _ => length new < length ms
       end.
Proof.
  intros HB.
  destruct (chain_appends ms h B node HB) as (new & Hnew & Hres).
  exists new. split; [exact Hnew|]. split.
  - intros b n Hb. rewrite Hnew. by apply lookup_app_l_Some.
  - destruct (fst (chain ms B h)) as [b|e]; [|exact Hres].
    destruct Hres as [Hlen Hb]. split; [exact Hlen|]. split; [exact Hb|].
    rewrite Hnew. apply lookup_lt_is_Some. rewrite length_app, Hb.
    apply lookup_lt_Some in HB.
    destruct ms; cbn in *; lia.
Qed.

Lemma chain_allocates_witness :
  exists new,
    snd (chain [m_unique; m_onDelete cascade; m_notNull] 0 [owner_id]) = [owner_id] ++ new
    /\ (forall b n, [owner_id] !! b = Some n ->
                    snd (chain [m_unique; m_onDelete cascade; m_notNull] 0 [owner_id]) !! b
                    = Some n)
    /\ match fst (chain [m_unique; m_onDelete cascade; m_notNull] 0 [owner_id]) with
       | Returned b =>
           length new = 3
           /\ b = length [owner_id] + 3 - 1
           /\ is_Some (snd (chain [m_unique; m_onDelete cascade; m_notNull] 0 [owner_id]) !! b)
       | Thrown _ => length new < 3
       end.
Proof.
  apply (chain_allocates [m_unique; m_onDelete cascade; m_notNull] [owner_id] 0 owner_id).
  reflexivity.
Defined.

(** ** Errors *)

(** X10.  The only calls that throw on a builder are these: a
    [references(ref)] call, whose error is then the same on every
    receiver and on every heap (it depends on [ref] alone); an [onDelete]
    or [onUpdate] call on a node without references sub-node; and a
    [stored()] call on a node without generated sub-node.  The five flag
    methods, [defaultTo], [check] and the three [generated*] methods never
    throw. *)
Theorem error_taxonomy (m : Method) (e : Error) (h : Heap)
        (B : ColumnDefinitionBuilder) (node : ColumnDefinitionNode.t) :
  h !! B = Some node ->
  fst (call m B h) = Thrown e ->
  (exists ref, m = m_references ref
               /\ forall (h2 : Heap) (B2 : ColumnDefinitionBuilder),
                   call m B2 h2 = (Thrown e, h2))
  \/ (exists action, (m = m_onDelete action \/ m = m_onUpdate action)
                     /\ ColumnDefinitionNode.references node = None
                     /\ exists message, e = PreconditionViolation message)
  \/ (m = m_stored
      /\ ColumnDefinitionNode.generated node = None
      /\ exists message, e = PreconditionViolation message).
Proof.
  intros HB. rewrite (call_transform m h B node HB).
  destruct m; run_transform; try discriminate.
  - intros Hthrown. left. exists ref. split; [reflexivity|].
    intros h2 B2. unfold_builder.
    destruct (parseStringReference ref) as [[c|[t [c|]]]|e0]; cbn in *;
      try discriminate Hthrown; injection Hthrown as <-; reflexivity.
  - destruct (ColumnDefinitionNode.references node); cbn; [discriminate|].
    intros [= <-]. right; left. exists action. eauto.
  - destruct (ColumnDefinitionNode.references node); cbn; [discriminate|].
    intros [= <-]. right; left. exists action. eauto.
  - destruct (ColumnDefinitionNode.generated node); cbn; [discriminate|].
    intros [= <-]. right; right. eauto.
Qed.

Lemma error_taxonomy_witness :
  (exists ref, m_stored = m_references ref
               /\ forall (h2 : Heap) (B2 : ColumnDefinitionBuilder),
                   call m_stored B2 h2
                   = (Thrown (PreconditionViolation
                                "stored() can only be called after generatedAlwaysAs"), h2))
  \/ (exists action, (m_stored = m_onDelete action \/ m_stored = m_onUpdate action)
                     /\ ColumnDefinitionNode.references owner_id = None
                     /\ exists message,
                         PreconditionViolation
                           "stored() can only be called after generatedAlwaysAs"
                         = PreconditionViolation message)
  \/ (m_stored = m_stored
      /\ ColumnDefinitionNode.generated owner_id = None
      /\ exists message,
          PreconditionViolation "stored() can only be called after generatedAlwaysAs"
          = PreconditionViolation message).
Proof.
  apply (error_taxonomy m_stored
           (PreconditionViolation "stored() can only be called after generatedAlwaysAs")
           [owner_id] 0 owner_id); reflexivity.
Defined.
